(** * whatsapp-baileys-bot: the send helper, the reconnect policy and the
      inbound handler of [index.js] and [example.js]

    The scripts are thin wrappers around the Baileys socket.  Everything the
    socket does is external, so the socket is a record of transition
    functions over an abstract world [W]; the code of the repository is
    embedded as computations in a small monad that threads the world,
    records every externally visible call in a trace and carries JavaScript
    exceptions, with [try_catch] for the [try { .. } catch (error) { .. }]
    blocks. *)

From Stdlib Require Import ZArith Ascii String.
From stdpp Require Import base option list strings gmap.

(** ** JavaScript values and strings

    Strings are byte strings in UTF-8.  The scripts search strings for the
    ASCII characters '@' and ':', whose bytes occur in no multi-byte
    sequence, and, in the auto-responder of example.js, for three Cyrillic
    words; UTF-8 is self-synchronizing, so on well-formed strings these
    searches agree with those of JavaScript on UTF-16 code units. *)

(** A field that the protocol buffers declare as [T | null | undefined]. *)
Inductive nullable (A : Type) : Type :=
| Undefined
| Null
| Val (a : A).
Arguments Undefined {A}.
Arguments Null {A}.
Arguments Val {A} a.

(** An [Error] instance: [error.message] is always a string. *)
Record JsError : Type := mkError { err_name : string; err_message : string }.

Definition TypeError (msg : string) : JsError := mkError "TypeError" msg.

(** The error of a disconnect, read through the [Boom] interface:
    [error.output.statusCode], where a plain [Error] has no [output]. *)
Record BoomOutput : Type := mkOutput { statusCode : Z }.
Record Boom : Type := mkBoom { boom_error : JsError; output : option BoomOutput }.

(** The values that are logged or end up in a returned object. *)
Inductive JsVal : Type :=
| JUndefined
| JNull
| JBool (b : bool)
| JNum (n : Z)
| JStr (s : string)
| JBoom (e : Boom).

Definition js_of_nullable {A} (inj : A → JsVal) (x : nullable A) : JsVal :=
  match x with
  | Undefined => JUndefined
  | Null => JNull
  | Val a => inj a
  end.

(** An object literal with string keys. *)
Abbreviation JsObject := (gmap string JsVal).

Definition nl : string := String (Ascii.ascii_of_nat 10) EmptyString.
Definition dquote : string := String (Ascii.ascii_of_nat 34) EmptyString.

(** [s.includes(needle)] *)
Fixpoint includes (s needle : string) : bool :=
  if String.prefix needle s then true
  else match s with
       | EmptyString => false
       | String _ s' => includes s' needle
       end.

(** ** What the transport hands back *)

(** One element of the array [sock.onWhatsApp] resolves to; the promise
    resolves to that array or, in the later releases of the library, to
    [undefined] when the server gave no answer. *)
Record OnWhatsAppResult : Type := mkOnWA { exists_ : bool; jid_ : string }.

Record WAMessageKey : Type := mkKey {
  remoteJid : nullable string;
  fromMe : nullable bool;
  id : nullable string
}.

Record ExtendedTextMessage : Type := mkExt { text : nullable string }.

Record MessageContent : Type := mkContent {
  conversation : nullable string;
  extendedTextMessage : option ExtendedTextMessage
}.

Record WAMessage : Type := mkMsg {
  key : WAMessageKey;
  message_ : option MessageContent;
  pushName : nullable string;
  messageTimestamp : nullable Z
}.

(** ** Traces and the effect monad *)

(** The calls that leave the scripts:
    [console.log(..)], [console.error(..)], [sock.onWhatsApp(phoneNumber)],
    [sock.sendMessage(jid, { text: body })], [qrcode.generate(qr, ..)],
    [delay(ms)] and the restart, [startWhatsAppBot()] in index.js and
    [connectWhatsApp()] in example.js. *)
Inductive Event : Type :=
| ConsoleLog (args : list JsVal)
| ConsoleError (args : list JsVal)
| OnWhatsApp (phoneNumber : string)
| SockSendMessage (jid : string) (body : string)
| QrGenerate (qr : string)
| Delay (ms : Z)
| Start.

Inductive Completion (A : Type) : Type :=
| Normal (a : A)
| Throw (e : JsError).
Arguments Normal {A} a.
Arguments Throw {A} e.

Definition M (W A : Type) : Type := W → W * list Event * Completion A.

Definition ret {W A} (a : A) : M W A := λ w, (w, [], Normal a).

Definition throw {W A} (e : JsError) : M W A := λ w, (w, [], Throw e).

Definition bind {W A B} (m : M W A) (k : A → M W B) : M W B :=
  λ w,
    match m w with
    | (w1, t1, Normal a) =>
        match k a w1 with
        | (w2, t2, r) => (w2, t1 ++ t2, r)
        end
    | (w1, t1, Throw e) => (w1, t1, Throw e)
    end.

Definition try_catch {W A} (body : M W A) (handler : JsError → M W A) : M W A :=
  λ w,
    match body w with
    | (w1, t1, Normal a) => (w1, t1, Normal a)
    | (w1, t1, Throw e) =>
        match handler e w1 with
        | (w2, t2, r) => (w2, t1 ++ t2, r)
        end
    end.

Definition emit {W} (ev : Event) : M W unit := λ w, (w, [ev], Normal tt).

(** An external call: logged, then answered by the world. *)
Definition call {W A} (ev : Event) (f : W → W * Completion A) : M W A :=
  λ w, match f w with (w1, r) => (w1, [ev], r) end.

#[global] Instance M_ret {W} : MRet (M W) := λ A, ret.
#[global] Instance M_bind {W} : MBind (M W) := λ A B k m, bind m k.

Definition console_log {W} (args : list JsVal) : M W unit := emit (ConsoleLog args).
Definition console_error {W} (args : list JsVal) : M W unit := emit (ConsoleError args).

Definition world_of {W A} (r : W * list Event * Completion A) : W := r.1.1.
Definition trace_of {W A} (r : W * list Event * Completion A) : list Event := r.1.2.
Definition result_of {W A} (r : W * list Event * Completion A) : Completion A := r.2.

(** The deliverability queries and the sends of a trace, in order. *)
Fixpoint queries (t : list Event) : list string :=
  match t with
  | [] => []
  | OnWhatsApp p :: t' => p :: queries t'
  | _ :: t' => queries t'
  end.

Fixpoint sends (t : list Event) : list (string * string) :=
  match t with
  | [] => []
  | SockSendMessage j b :: t' => (j, b) :: sends t'
  | _ :: t' => sends t'
  end.

(** The socket as the scripts use it. *)
Record WASocket (W : Type) : Type := mkSock {
  sock_onWhatsApp : string → W → W * Completion (option (list OnWhatsAppResult));
  sock_sendMessage : string → string → W → W * Completion (option WAMessage);
  sock_user_id : W → option string
}.
Arguments sock_onWhatsApp {W} _ _ _.
Arguments sock_sendMessage {W} _ _ _ _.
Arguments sock_user_id {W} _ _.

(** [sentMessage.key] and the like on a value that may be [undefined]. *)
Definition get_prop {W A B} (o : option A) (prop : string) (f : A → B) : M W B :=
  match o with
  | Some a => ret (f a)
  | None =>
      throw (TypeError ("Cannot read properties of undefined (reading '" +:+ prop +:+ "')"))
  end.

(** [const [x] = await ..]: the first element of an array, [undefined]
    when the array is empty; a value that is not iterable raises, and Node
    names the awaited expression "(intermediate value)". *)
Definition destructure_first {W A} (v : option (list A)) : M W (option A) :=
  match v with
  | Some arr => ret (head arr)
  | None =>
      throw (TypeError "(intermediate value) is not iterable")
  end.

(** [for (const x of xs) body]; a [continue] is the body returning early. *)
Fixpoint for_of {W A} (xs : list A) (body : A → M W unit) : M W unit :=
  match xs with
  | [] => ret tt
  | x :: xs' => body x;; for_of xs' body
  end.

(** Truthiness of the values the handlers test. *)
Definition truthy_bool (x : nullable bool) : bool :=
  match x with Val true => true | _ => false end.

Definition truthy_string (x : nullable string) : bool :=
  match x with
  | Val EmptyString => false
  | Val _ => true
  | _ => false
  end.

(** [a || b] on strings that may be missing. *)
Definition or_string (a b : nullable string) : nullable string :=
  if truthy_string a then a else b.

(** A value inside a template literal. *)
Definition template (x : nullable string) : string :=
  match x with
  | Undefined => "undefined"
  | Null => "null"
  | Val s => s
  end.

(** [s.split(sep)[0]] for a one-character separator. *)
Fixpoint split0 (sep : Ascii.ascii) (s : string) : string :=
  match s with
  | EmptyString => EmptyString
  | String c s' => if Ascii.eqb c sep then EmptyString else String c (split0 sep s')
  end.

(** The argument of a [connection.update] event. *)
Record LastDisconnect : Type := mkLast { error : option Boom }.

Record ConnectionUpdate : Type := mkUpdate {
  connection : option string;
  lastDisconnect : option LastDisconnect;
  qr : option string
}.

(** [lastDisconnect?.error] *)
Definition lastDisconnect_error (lastDisconnect : option LastDisconnect) : option Boom :=
  l ← lastDisconnect; error l.

(** [lastDisconnect?.error?.output?.statusCode] *)
Definition disconnect_statusCode (lastDisconnect : option LastDisconnect) : option Z :=
  e ← lastDisconnect_error lastDisconnect; o ← output e; Some (statusCode o).

Definition js_of_error (e : option Boom) : JsVal :=
  match e with Some b => JBoom b | None => JUndefined end.

(** [if (qr)]: a non-empty string. *)
Definition truthy_qr (qr : option string) : bool :=
  match qr with
  | Some (String _ _) => true
  | _ => false
  end.

(** The reconnects of a trace: the waits and the restarts, in order. *)
Fixpoint reconnects (t : list Event) : list Event :=
  match t with
  | [] => []
  | Delay ms :: t' => Delay ms :: reconnects t'
  | Start :: t' => Start :: reconnects t'
  | _ :: t' => reconnects t'
  end.

(** ** index.js *)
Module Index.

Definition AUTH_FOLDER : string := "./auth_info".

Definition NOT_REGISTERED : string := "Номер не зарегистрирован в WhatsApp".

Section Handlers.
Context {W : Type}.
(** [DisconnectReason.loggedOut], a constant of the Baileys library. *)
Variable loggedOut : Z.
Variable sock : WASocket W.

(** The [connection.update] observer of [startWhatsAppBot]. *)
Definition on_connection_update (update : ConnectionUpdate) : M W unit :=
  let connection := connection update in
  let lastDisconnect := lastDisconnect update in
  let qr := qr update in
  (if truthy_qr qr then
     console_log [JStr (nl +:+ "📱 Отсканируйте QR-код с помощью WhatsApp:" +:+ nl)];;
     emit (QrGenerate (default EmptyString qr));;
     console_log [JStr (nl +:+ "⏳ Ожидание сканирования QR-кода..." +:+ nl)]
   else ret tt);;
  (if bool_decide (connection = Some "open") then
     console_log [JStr "✅ Успешно подключено к WhatsApp!"];;
     user_id ← (λ w, get_prop (sock_user_id sock w) "id" (λ i, i) w);
     console_log [JStr "📞 Номер:"; JStr (split0 ":"%char user_id)];;
     console_log [JStr "📝 Сессия сохранена в:"; JStr AUTH_FOLDER]
   else ret tt);;
  (if bool_decide (connection = Some "close") then
     let shouldReconnect :=
       bool_decide (disconnect_statusCode lastDisconnect ≠ Some loggedOut) in
     console_log [JStr "❌ Соединение закрыто. Причина:";
                  js_of_error (lastDisconnect_error lastDisconnect)];;
     if shouldReconnect then
       console_log [JStr "🔄 Переподключение..."];;
       emit (Delay 3000);;
       emit Start
     else
       console_log [JStr "🚪 Вышли из системы. Удалите папку auth_info для повторной авторизации."]
   else ret tt).

(** The [messages.upsert] observer of [startWhatsAppBot]. *)
Definition on_messages_upsert (messages : list WAMessage) (type : string) : M W unit :=
  if bool_decide (type ≠ "notify") then ret tt
  else
    for_of messages (λ message,
      if truthy_bool (fromMe (key message)) then ret tt
      else
        let messageText :=
          template
            (or_string
               (or_string
                  (match message_ message with
                   | Some c => conversation c
                   | None => Undefined
                   end)
                  (match message_ message with
                   | Some c =>
                       match extendedTextMessage c with
                       | Some e => text e
                       | None => Undefined
                       end
                   | None => Undefined
                   end))
               (Val EmptyString)) in
        let from := remoteJid (key message) in
        let senderName := template (or_string (pushName message) (Val "Unknown")) in
        console_log [JStr (nl +:+ "📨 Получено сообщение от " +:+ senderName +:+
                           " (" +:+ template from +:+ "):")];;
        console_log [JStr ("   " +:+ dquote +:+ messageText +:+ dquote +:+ nl)]).

Definition sendMessage (phoneNumber message : string) : M W JsObject :=
  try_catch
    (let jid := if includes phoneNumber "@" then phoneNumber
                else phoneNumber +:+ "@s.whatsapp.net" in
     console_log [JStr (nl +:+ "📤 Отправка сообщения на " +:+ phoneNumber +:+ "...")];;
     answer ← call (OnWhatsApp phoneNumber) (sock_onWhatsApp sock phoneNumber);
     result ← destructure_first answer;
     if match result with None => true | Some r => negb (exists_ r) end then
       console_error [JStr ("❌ Номер " +:+ phoneNumber +:+ " не зарегистрирован в WhatsApp")];;
       ret ({[ "success" := JBool false;
               "error" := JStr "Номер не зарегистрирован в WhatsApp" ]} : JsObject)
     else
       sentMessage ← call (SockSendMessage jid message)
                          (sock_sendMessage sock jid message);
       console_log [JStr "✅ Сообщение успешно отправлено!"];;
       console_log [JStr ("   Кому: " +:+ phoneNumber)];;
       console_log [JStr ("   Текст: " +:+ dquote +:+ message +:+ dquote +:+ nl)];;
       k ← get_prop sentMessage "key" key;
       ts ← get_prop sentMessage "messageTimestamp" messageTimestamp;
       ret ({[ "success" := JBool true;
               "messageId" := js_of_nullable JStr (id k);
               "timestamp" := js_of_nullable JNum ts ]} : JsObject))
    (λ error,
       console_error [JStr "❌ Ошибка при отправке сообщения:"; JStr (err_message error)];;
       ret ({[ "success" := JBool false;
               "error" := JStr (err_message error) ]} : JsObject)).
End Handlers.

End Index.

(** ** example.js *)
Module Example.

Definition NOT_REGISTERED : string := "Номер не зарегистрирован".

Section Handlers.
Context {W : Type}.
Variable loggedOut : Z.
Variable sock : WASocket W.

(** The [connection.update] observer of [connectWhatsApp]. *)
Definition on_connection_update (update : ConnectionUpdate) : M W unit :=
  let connection := connection update in
  let lastDisconnect := lastDisconnect update in
  let qr := qr update in
  (if truthy_qr qr then
     console_log [JStr (nl +:+ "📱 Отсканируйте QR-код:" +:+ nl)];;
     emit (QrGenerate (default EmptyString qr));;
     console_log [JStr nl]
   else ret tt);;
  (if bool_decide (connection = Some "open") then
     console_log [JStr "✅ Подключено к WhatsApp"];;
     user_id ← (λ w, get_prop (sock_user_id sock w) "id" (λ i, i) w);
     console_log [JStr ("📞 Номер: " +:+ split0 ":"%char user_id +:+ nl)]
   else ret tt);;
  (if bool_decide (connection = Some "close") then
     let shouldReconnect :=
       bool_decide (disconnect_statusCode lastDisconnect ≠ Some loggedOut) in
     if shouldReconnect then
       console_log [JStr "🔄 Переподключение..."];;
       emit (Delay 3000);;
       emit Start
     else ret tt
   else ret tt).

Definition sendMessage (phoneNumber message : string) : M W JsObject :=
  try_catch
    (let jid := if includes phoneNumber "@" then phoneNumber
                else phoneNumber +:+ "@s.whatsapp.net" in
     answer ← call (OnWhatsApp phoneNumber) (sock_onWhatsApp sock phoneNumber);
     result ← destructure_first answer;
     if match result with None => true | Some r => negb (exists_ r) end then
       console_error [JStr ("❌ " +:+ phoneNumber +:+ " не зарегистрирован в WhatsApp")];;
       ret ({[ "success" := JBool false;
               "error" := JStr "Номер не зарегистрирован" ]} : JsObject)
     else
       sentMessage ← call (SockSendMessage jid message)
                          (sock_sendMessage sock jid message);
       console_log [JStr ("✅ Сообщение отправлено на " +:+ phoneNumber)];;
       k ← get_prop sentMessage "key" key;
       ts ← get_prop sentMessage "messageTimestamp" messageTimestamp;
       ret ({[ "success" := JBool true;
               "messageId" := js_of_nullable JStr (id k);
               "timestamp" := js_of_nullable JNum ts ]} : JsObject))
    (λ error,
       console_error [JStr ("❌ Ошибка: " +:+ err_message error)];;
       ret ({[ "success" := JBool false;
               "error" := JStr (err_message error) ]} : JsObject)).
End Handlers.

End Example.

(** ** Vocabulary of the statements *)

(** The two shapes of a returned outcome. *)
Definition failure (description : string) : JsObject :=
  {[ "success" := JBool false; "error" := JStr description ]}.

Definition delivered (messageId timestamp : JsVal) : JsObject :=
  {[ "success" := JBool true; "messageId" := messageId; "timestamp" := timestamp ]}.

(** The address the specification asks the send to use: the destination
    as it is when it holds the domain separator, and the destination with
    the canonical suffix otherwise. *)
Definition normalized (destination address : string) : Prop :=
  ((∃ pre post, destination = pre +:+ "@" +:+ post) ∧ address = destination) ∨
  ((¬ ∃ pre post, destination = pre +:+ "@" +:+ post) ∧
   address = destination +:+ "@s.whatsapp.net").

(** The query found the destination: the first element of the array
    exists and says so. *)
Definition reports_exists (arr : list OnWhatsAppResult) : bool :=
  match arr with
  | r :: _ => exists_ r
  | [] => false
  end.

(** ** Sample sockets

    The world of the samples counts the calls answered so far. *)
Module Samples.

Definition sent (jid : string) : WAMessage :=
  mkMsg (mkKey (Val jid) (Val true) (Val "ABC123")) None Undefined (Val 1700000000%Z).

(** Every destination is registered and every send goes through. *)
Definition sock_reachable : WASocket nat :=
  mkSock nat
    (λ p w, (S w, Normal (Some [mkOnWA true (split0 "@"%char p +:+ "@s.whatsapp.net")])))
    (λ j b w, (S w, Normal (Some (sent j))))
    (λ w, Some "79990000000:12@s.whatsapp.net").

(** The query finds nobody: the array it resolves to is empty. *)
Definition sock_absent : WASocket nat :=
  mkSock nat
    (λ p w, (S w, Normal (Some [])))
    (λ j b w, (S w, Normal (Some (sent j))))
    (λ w, Some "79990000000:12@s.whatsapp.net").

(** The query reports the destination with [exists: false]. *)
Definition sock_not_exists : WASocket nat :=
  mkSock nat
    (λ p w, (S w, Normal (Some [mkOnWA false p])))
    (λ j b w, (S w, Normal (Some (sent j))))
    (λ w, Some "79990000000:12@s.whatsapp.net").

(** The query itself is rejected. *)
Definition sock_offline : WASocket nat :=
  mkSock nat
    (λ p w, (S w, Throw (mkError "Error" "Connection Closed")))
    (λ j b w, (S w, Throw (mkError "Error" "Connection Closed")))
    (λ w, None).

(** The destination is registered but the send is rejected. *)
Definition sock_send_fails : WASocket nat :=
  mkSock nat
    (λ p w, (S w, Normal (Some [mkOnWA true p])))
    (λ j b w, (S w, Throw (mkError "Error" "Timed Out")))
    (λ w, Some "79990000000:12@s.whatsapp.net").



Definition loggedOut : Z := 401.

Definition closed_by (code : Z) : ConnectionUpdate :=
  mkUpdate (Some "close")
    (Some (mkLast (Some (mkBoom (mkError "Error" "Connection Failure")
                                (Some (mkOutput code))))))
    None.

Definition peer_message (body : string) : WAMessage :=
  mkMsg (mkKey (Val "79123456789@s.whatsapp.net") (Val false) (Val "M1"))
        (Some (mkContent (Val body) None)) (Val "Peer") (Val 1700000001%Z).

Definition own_message (body : string) : WAMessage :=
  mkMsg (mkKey (Val "79123456789@s.whatsapp.net") (Val true) (Val "M2"))
        (Some (mkContent (Val body) None)) Undefined (Val 1700000002%Z).

End Samples.

(** ** example.js: the example flows

    Each flow first connects and, for the first, second and fourth, waits
    for the socket to open; what is embedded here is what the flow does
    with the open socket. *)
Module Examples.

Definition GREETING : string := "Привет! Чем могу помочь?".

Definition HELP : string :=
  "Доступные команды:" +:+ nl +:+
  "• " +:+ dquote +:+ "привет" +:+ dquote +:+ " - приветствие" +:+ nl +:+
  "• " +:+ dquote +:+ "помощь" +:+ dquote +:+ " - список команд" +:+ nl +:+
  "• " +:+ dquote +:+ "время" +:+ dquote +:+ " - текущее время".

Section Responder.
Context {W : Type}.
Variable sock : WASocket W.
(** [String.prototype.toLowerCase], a built-in of the language. *)
Variable toLowerCase : string → string.
(** [new Date().toLocaleString('ru-RU', { timeZone: 'Europe/Moscow' })]. *)
Variable now : W → string.
(** What [sock.sendMessage] does when the jid it is given is [null] or
    [undefined]; the library decides, not the scripts. *)
Variable send_nowhere : string → W → W * Completion (option WAMessage).

(** [sock.sendMessage(from, { text })] with [from] read off a message key.
    The trace names the jid as a template literal prints it. *)
Definition reply (from : nullable string) (body : string) : M W (option WAMessage) :=
  call (SockSendMessage (template from) body)
       (match from with
        | Val jid => sock_sendMessage sock jid body
        | _ => send_nowhere body
        end).

(** The [messages.upsert] observer of [example3_autoResponder]. *)
Definition on_messages_upsert (messages : list WAMessage) (type : string) : M W unit :=
  if bool_decide (type ≠ "notify") then ret tt
  else
    for_of messages (λ message,
      if truthy_bool (fromMe (key message)) then ret tt
      else
        let messageText :=
          template
            (or_string
               (or_string
                  (match message_ message with
                   | Some c => conversation c
                   | None => Undefined
                   end)
                  (match message_ message with
                   | Some c =>
                       match extendedTextMessage c with
                       | Some e => text e
                       | None => Undefined
                       end
                   | None => Undefined
                   end))
               (Val EmptyString)) in
        let from := remoteJid (key message) in
        let senderName := template (or_string (pushName message) (Val "Unknown")) in
        console_log [JStr ("📨 Получено от " +:+ senderName +:+ ": " +:+
                           dquote +:+ messageText +:+ dquote)];;
        if includes (toLowerCase messageText) "привет" then
          reply from "Привет! Чем могу помочь?";; ret tt
        else if includes (toLowerCase messageText) "помощь" then
          reply from HELP;; ret tt
        else if includes (toLowerCase messageText) "время" then
          (λ w, reply from ("Текущее время: " +:+ now w) w);; ret tt
        else ret tt).
End Responder.

Record Outgoing : Type := mkOutgoing { phone : string; text : string }.

(** The list [messages] of [example2_sendMultipleMessages]. *)
Definition example2_messages : list Outgoing :=
  [ mkOutgoing "79123456789" "Первое сообщение";
    mkOutgoing "79123456789" "Второе сообщение";
    mkOutgoing "79987654321" "Сообщение другому пользователю" ].

(** The list [numbersToCheck] of [example4_checkNumbers]. *)
Definition numbersToCheck : list string :=
  [ "79123456789"; "79987654321"; "71234567890" ].

Section Flows.
Context {W : Type}.
Variable sock : WASocket W.

(** The loop of [example2_sendMultipleMessages]. *)
Definition example2_sendMultipleMessages (messages : list Outgoing) : M W unit :=
  for_of messages (λ msg,
    Example.sendMessage sock (phone msg) (text msg);;
    emit (Delay 2000)).

(** The loop of [example4_checkNumbers]. *)
Definition example4_checkNumbers (numbersToCheck : list string) : M W unit :=
  for_of numbersToCheck (λ number,
    answer ← call (OnWhatsApp number) (sock_onWhatsApp sock number);
    result ← destructure_first answer;
    if match result with Some r => exists_ r | None => false end then
      console_log [JStr ("✅ " +:+ number +:+ " - зарегистрирован в WhatsApp")]
    else
      console_log [JStr ("❌ " +:+ number +:+ " - НЕ зарегистрирован")]).
End Flows.

End Examples.

(** The waits of a trace, in order. *)
Fixpoint delays (t : list Event) : list Z :=
  match t with
  | [] => []
  | Delay ms :: t' => ms :: delays t'
  | _ :: t' => delays t'
  end.

(** The pairing codes rendered in a trace, in order. *)
Fixpoint qr_codes (t : list Event) : list string :=
  match t with
  | [] => []
  | QrGenerate qr :: t' => qr :: qr_codes t'
  | _ :: t' => qr_codes t'
  end.

(** The calls to the socket in a trace, in order. *)
Fixpoint socket_calls (t : list Event) : list Event :=
  match t with
  | [] => []
  | OnWhatsApp p :: t' => OnWhatsApp p :: socket_calls t'
  | SockSendMessage j b :: t' => SockSendMessage j b :: socket_calls t'
  | _ :: t' => socket_calls t'
  end.

(** The calls to the socket and the waits of a trace, in order. *)
Fixpoint calls_and_waits (t : list Event) : list Event :=
  match t with
  | [] => []
  | OnWhatsApp p :: t' => OnWhatsApp p :: calls_and_waits t'
  | SockSendMessage j b :: t' => SockSendMessage j b :: calls_and_waits t'
  | Delay ms :: t' => Delay ms :: calls_and_waits t'
  | _ :: t' => calls_and_waits t'
  end.

(** The address [sendMessage] computes for the send. *)
Definition jid_of (phoneNumber : string) : string :=
  if includes phoneNumber "@" then phoneNumber else phoneNumber +:+ "@s.whatsapp.net".

(** A message that is not marked as our own. *)
Definition from_peer (m : WAMessage) : bool := negb (truthy_bool (fromMe (key m))).

(** The text the observers read off a message,
    [message.message?.conversation ||
     message.message?.extendedTextMessage?.text || '']. *)
Definition message_text (message : WAMessage) : string :=
  template
    (or_string
       (or_string
          (match message_ message with
           | Some c => conversation c
           | None => Undefined
           end)
          (match message_ message with
           | Some c =>
               match extendedTextMessage c with
               | Some e => text e
               | None => Undefined
               end
           | None => Undefined
           end))
       (Val EmptyString)).

(** The bodies the auto-responder replies with. *)
Definition is_reply {W} (now : W → string) (body : string) : Prop :=
  body = Examples.GREETING ∨ body = Examples.HELP ∨
  ∃ w : W, body = "Текущее время: " +:+ now w.

(** ** More sample sockets and events *)
Module MoreSamples.

(** The first query is answered, every later one is rejected. *)
Definition sock_flaky : WASocket nat :=
  mkSock nat
    (λ p w, if decide (w = 0) then (S w, Normal (Some [mkOnWA true p]))
            else (S w, Throw (mkError "Error" "Timed Out")))
    (λ j b w, (S w, Normal (Some (Samples.sent j))))
    (λ w, Some "79990000000:12@s.whatsapp.net").

(** The first query is answered, every later one resolves to [undefined]. *)
Definition sock_fading : WASocket nat :=
  mkSock nat
    (λ p w, if decide (w = 0) then (S w, Normal (Some [mkOnWA true p]))
            else (S w, Normal None))
    (λ j b w, (S w, Normal (Some (Samples.sent j))))
    (λ w, Some "79990000000:12@s.whatsapp.net").

Definition opened : ConnectionUpdate := mkUpdate (Some "open") None None.

Definition pairing : ConnectionUpdate := mkUpdate None None (Some "2@AbCdEf").

(** Texts that are in lower case already. *)
Definition toLowerCase (s : string) : string := s.

Definition now (w : nat) : string := "01.01.2025, 12:00:00".

Definition send_nowhere (body : string) (w : nat) : nat * Completion (option WAMessage) :=
  (w, Throw (mkError "Error" "Invalid jid")).

End MoreSamples.

(** * Properties *)

(** ** Strings *)

Lemma append_nil (t : string) : EmptyString +:+ t = t.
Proof. reflexivity. Qed.

Lemma append_cons (a : ascii) (s t : string) :
  String a s +:+ t = String a (s +:+ t).
Proof. reflexivity. Qed.

Lemma prefix_true_iff (n s : string) :
  String.prefix n s = true ↔ ∃ post, s = n +:+ post.
Proof.
  revert s. induction n as [|a n IH]; intros s.
  - split; [intros _; by exists s | by destruct s].
  - destruct s as [|b s]; simpl.
    + split; [done | intros [post H]; rewrite append_cons in H; discriminate H].
    + destruct (ascii_dec a b) as [->|Hne].
      * rewrite IH.
        split; intros [post H]; exists post; rewrite append_cons in *; congruence.
      * split; [done | intros [post H]; rewrite append_cons in H; congruence].
Qed.

Lemma includes_unfold (s n : string) :
  includes s n =
  if String.prefix n s then true
  else match s with
       | EmptyString => false
       | String _ s' => includes s' n
       end.
Proof. by destruct s. Qed.

(** [includes] finds the needle exactly when it occurs somewhere. *)
Lemma includes_true_iff (s n : string) :
  includes s n = true ↔ ∃ pre post, s = pre +:+ n +:+ post.
Proof.
  split.
  - induction s as [|a s IH]; rewrite includes_unfold;
      destruct (String.prefix n _) eqn:Hp.
    + intros _. apply prefix_true_iff in Hp as [post Hp].
      by exists EmptyString, post.
    + done.
    + intros _. apply prefix_true_iff in Hp as [post Hp].
      by exists EmptyString, post.
    + intros H. destruct (IH H) as (pre & post & ->).
      by exists (String a pre), post.
  - intros (pre & post & ->).
    induction pre as [|a pre IH]; rewrite includes_unfold.
    + rewrite append_nil.
      assert (String.prefix n (n +:+ post) = true) as ->; [|done].
      apply prefix_true_iff. by exists post.
    + rewrite append_cons, IH. by destruct (String.prefix _ _).
Qed.

Lemma includes_false_iff (s n : string) :
  includes s n = false ↔ ¬ ∃ pre post, s = pre +:+ n +:+ post.
Proof.
  rewrite <- includes_true_iff. by destruct (includes s n).
Qed.

Lemma includes_qualified (p : string) :
  includes (p +:+ "@s.whatsapp.net") "@" = true.
Proof. apply includes_true_iff. by exists p, "s.whatsapp.net". Qed.

(** ** The paths through [sendMessage] *)

Ltac unfold_run :=
  unfold Index.sendMessage, Example.sendMessage, try_catch, mbind, M_bind, bind,
    call, console_log, console_error, emit, get_prop, destructure_first, ret, throw,
    trace_of, result_of, world_of.

(** Case analysis on what the socket answers to the query and, where the
    code gets that far, to the send. *)
Ltac send_cases sock p w :=
  unfold_run;
  destruct (sock_onWhatsApp sock p w) as [? [[[|[[] ?] ?]|]|?]]; simpl;
  try match goal with
      | |- context [sock_sendMessage sock ?j ?m ?w1] =>
          destruct (sock_sendMessage sock j m w1) as [? [[?|]|?]]; simpl
      end.

Lemma failure_success d : failure d !! "success" = Some (JBool false).
Proof. unfold failure. by simplify_map_eq. Qed.

Lemma failure_error d : failure d !! "error" = Some (JStr d).
Proof. unfold failure. by simplify_map_eq. Qed.

Lemma failure_messageId d : failure d !! "messageId" = None.
Proof. unfold failure. by simplify_map_eq. Qed.

Lemma failure_timestamp d : failure d !! "timestamp" = None.
Proof. unfold failure. by simplify_map_eq. Qed.

Lemma delivered_success i t : delivered i t !! "success" = Some (JBool true).
Proof. unfold delivered. by simplify_map_eq. Qed.

Lemma delivered_messageId i t : delivered i t !! "messageId" = Some i.
Proof. unfold delivered. by simplify_map_eq. Qed.

Lemma delivered_timestamp i t : delivered i t !! "timestamp" = Some t.
Proof. unfold delivered. by simplify_map_eq. Qed.

Lemma delivered_error i t : delivered i t !! "error" = None.
Proof. unfold delivered. by simplify_map_eq. Qed.

Lemma failure_inj d1 d2 : failure d1 = failure d2 → d1 = d2.
Proof.
  intros H. assert (failure d1 !! "error" = failure d2 !! "error") as He by by rewrite H.
  rewrite !failure_error in He. congruence.
Qed.

Ltac fold_outcomes :=
  repeat match goal with
         | |- context [ {[ "success" := JBool false; "error" := JStr ?d ]} ] =>
             change ({[ "success" := JBool false; "error" := JStr d ]})
               with (failure d)
         | |- context [ {[ "success" := JBool true; "messageId" := ?i; "timestamp" := ?t ]} ] =>
             change ({[ "success" := JBool true; "messageId" := i; "timestamp" := t ]})
               with (delivered i t)
         end.

Ltac rewrite_outcomes :=
  rewrite ?failure_success, ?failure_error, ?failure_messageId, ?failure_timestamp,
    ?delivered_success, ?delivered_messageId, ?delivered_timestamp, ?delivered_error.

(** The two end-to-end scenarios of the API documentation. *)
Example scenario_delivered :
  Index.sendMessage Samples.sock_reachable "79123456789" "Привет!" 0 =
  (2,
   [ConsoleLog [JStr (nl +:+ "📤 Отправка сообщения на 79123456789...")];
    OnWhatsApp "79123456789";
    SockSendMessage "79123456789@s.whatsapp.net" "Привет!";
    ConsoleLog [JStr "✅ Сообщение успешно отправлено!"];
    ConsoleLog [JStr "   Кому: 79123456789"];
    ConsoleLog [JStr ("   Текст: " +:+ dquote +:+ "Привет!" +:+ dquote +:+ nl)]],
   Normal (delivered (JStr "ABC123") (JNum 1700000000))).
Proof. vm_compute. reflexivity. Qed.

Example scenario_not_registered :
  Index.sendMessage Samples.sock_not_exists "71111111111" "Тест" 0 =
  (1,
   [ConsoleLog [JStr (nl +:+ "📤 Отправка сообщения на 71111111111...")];
    OnWhatsApp "71111111111";
    ConsoleError [JStr "❌ Номер 71111111111 не зарегистрирован в WhatsApp"]],
   Normal (failure "Номер не зарегистрирован в WhatsApp")).
Proof. vm_compute. reflexivity. Qed.

Example scenario_logged_out :
  trace_of (Index.on_connection_update Samples.loggedOut Samples.sock_offline
              (Samples.closed_by 401) 0) =
  [ConsoleLog [JStr "❌ Соединение закрыто. Причина:";
               JBoom (mkBoom (mkError "Error" "Connection Failure")
                             (Some (mkOutput 401)))];
   ConsoleLog [JStr "🚪 Вышли из системы. Удалите папку auth_info для повторной авторизации."]].
Proof. vm_compute. reflexivity. Qed.

Example scenario_peer_message :
  trace_of (Index.on_messages_upsert (W := nat)
              [Samples.own_message "привет"; Samples.peer_message "привет"] "notify" 0) =
  [ConsoleLog [JStr (nl +:+ "📨 Получено сообщение от Peer (79123456789@s.whatsapp.net):")];
   ConsoleLog [JStr ("   " +:+ dquote +:+ "привет" +:+ dquote +:+ nl)]].
Proof. vm_compute. reflexivity. Qed.

Section SendMessage.
Context {W : Type}.
Variable sock : WASocket W.

(** C6: one invocation of [sendMessage] issues exactly one deliverability
    query and at most one send against the socket. *)
Theorem sendMessage_one_query_at_most_one_send (phoneNumber message : string) (w : W) :
  let t := trace_of (Index.sendMessage sock phoneNumber message w) in
  length (queries t) = 1 ∧ length (sends t) ≤ 1.
Proof.
  send_cases sock phoneNumber w; split; simpl; lia.
Qed.

(** C3: the outcome [sendMessage] returns has [success: true] exactly when
    it carries [messageId] and [timestamp] and no [error], and
    [success: false] exactly when it carries [error] and neither
    [messageId] nor [timestamp]. *)
Theorem sendMessage_outcome_shape (phoneNumber message : string) (w : W) :
  ∃ o : JsObject,
    result_of (Index.sendMessage sock phoneNumber message w) = Normal o ∧
    (o !! "success" = Some (JBool true) ↔
       is_Some (o !! "messageId") ∧ is_Some (o !! "timestamp") ∧ o !! "error" = None) ∧
    (o !! "success" = Some (JBool false) ↔
       is_Some (o !! "error") ∧ o !! "messageId" = None ∧ o !! "timestamp" = None).
Proof.
  send_cases sock phoneNumber w; eexists; (split; [reflexivity|]);
    fold_outcomes; rewrite_outcomes;
    (split; (split; [intros ? | intros (? & ? & ?)]));
    repeat split; try done;
    match goal with
    | H : is_Some None |- _ => by destruct H
    end.
Qed.

Lemma normalized_jid (phoneNumber : string) :
  normalized phoneNumber
    (if includes phoneNumber "@" then phoneNumber else phoneNumber +:+ "@s.whatsapp.net").
Proof.
  destruct (includes phoneNumber "@") eqn:H; [left | right]; split; try done.
  - by apply includes_true_iff.
  - by apply includes_false_iff.
Qed.

(** C7: the address of the send call is the destination unchanged when the
    destination contains '@' and the destination followed by
    "@s.whatsapp.net" otherwise; when the query finds the destination, the
    send call is issued, with that address and the given body. *)
Theorem sendMessage_sends_to_normalized (phoneNumber message : string) (w : W) :
  let t := trace_of (Index.sendMessage sock phoneNumber message w) in
  (∀ jid body, (jid, body) ∈ sends t → normalized phoneNumber jid ∧ body = message) ∧
  (∀ w1 arr, sock_onWhatsApp sock phoneNumber w = (w1, Normal (Some arr)) →
             reports_exists arr = true →
             ∃ jid, sends t = [(jid, message)] ∧ normalized phoneNumber jid).
Proof.
  pose proof (normalized_jid phoneNumber) as Hn.
  send_cases sock phoneNumber w; split;
    try (intros jid body Hin; simpl in Hin;
         first [ by apply elem_of_nil in Hin
               | apply list_elem_of_singleton in Hin; injection Hin as -> ->; by split ]);
    intros ? ? [= <- <-]; simpl; try done; intros _; by eexists.
Qed.


(** C10: when the deliverability query itself raises an error,
    [sendMessage] neither throws nor sends: it returns the failure outcome
    whose [error] is the message of the raised error, which is not the
    fixed not-registered outcome unless the two texts coincide. *)
Theorem sendMessage_query_raises (phoneNumber message : string) (w w1 : W) (e : JsError) :
  sock_onWhatsApp sock phoneNumber w = (w1, Throw e) →
  let ri := Index.sendMessage sock phoneNumber message w in
  let re := Example.sendMessage sock phoneNumber message w in
  (result_of ri = Normal (failure (err_message e)) ∧
   sends (trace_of ri) = [] ∧
   (err_message e ≠ Index.NOT_REGISTERED →
    result_of ri ≠ Normal (failure Index.NOT_REGISTERED))) ∧
  (result_of re = Normal (failure (err_message e)) ∧
   sends (trace_of re) = [] ∧
   (err_message e ≠ Example.NOT_REGISTERED →
    result_of re ≠ Normal (failure Example.NOT_REGISTERED))).
Proof.
  intros Hq ri re. subst ri re. unfold failure. unfold_run. rewrite Hq. simpl.
  repeat split; intros Hne H; apply Hne, failure_inj; unfold failure; congruence.
Qed.

Lemma index_not_registered
    (phoneNumber message : string) (w w1 : W) (arr : list OnWhatsAppResult) :
  sock_onWhatsApp sock phoneNumber w = (w1, Normal (Some arr)) →
  reports_exists arr = false →
  Index.sendMessage sock phoneNumber message w =
  (w1,
   [ConsoleLog [JStr (nl +:+ "📤 Отправка сообщения на " +:+ phoneNumber +:+ "...")];
    OnWhatsApp phoneNumber;
    ConsoleError [JStr ("❌ Номер " +:+ phoneNumber +:+ " не зарегистрирован в WhatsApp")]],
   Normal (failure Index.NOT_REGISTERED)).
Proof.
  intros Hq Hex. unfold failure. unfold_run. rewrite Hq.
  by destruct arr as [|[[] ?] ?].
Qed.

Lemma example_not_registered
    (phoneNumber message : string) (w w1 : W) (arr : list OnWhatsAppResult) :
  sock_onWhatsApp sock phoneNumber w = (w1, Normal (Some arr)) →
  reports_exists arr = false →
  Example.sendMessage sock phoneNumber message w =
  (w1,
   [OnWhatsApp phoneNumber;
    ConsoleError [JStr ("❌ " +:+ phoneNumber +:+ " не зарегистрирован в WhatsApp")]],
   Normal (failure Example.NOT_REGISTERED)).
Proof.
  intros Hq Hex. unfold failure. unfold_run. rewrite Hq.
  by destruct arr as [|[[] ?] ?].
Qed.

(** C2, as the code has it: when the query resolves to an array whose first
    element is missing or says the destination does not exist,
    [sendMessage] performs no send and returns the failure outcome with the
    fixed text of the file: "Номер не зарегистрирован в WhatsApp" in
    index.js, "Номер не зарегистрирован" in example.js. *)
Theorem sendMessage_not_registered
    (phoneNumber message : string) (w w1 : W) (arr : list OnWhatsAppResult) :
  sock_onWhatsApp sock phoneNumber w = (w1, Normal (Some arr)) →
  reports_exists arr = false →
  let ri := Index.sendMessage sock phoneNumber message w in
  let re := Example.sendMessage sock phoneNumber message w in
  (result_of ri = Normal (failure Index.NOT_REGISTERED) ∧ sends (trace_of ri) = []) ∧
  (result_of re = Normal (failure Example.NOT_REGISTERED) ∧ sends (trace_of re) = []).
Proof.
  intros Hq Hex ri re. subst ri re.
  rewrite (index_not_registered _ message _ _ _ Hq Hex).
  by rewrite (example_not_registered _ message _ _ _ Hq Hex).
Qed.

(** The run on a bare destination and the run on its qualified form differ
    in the query they issue and in nothing that depends on the destination
    after it. *)
Lemma index_sendMessage_agree (p message : string) (w : W) :
  includes p "@" = false →
  let q := p +:+ "@s.whatsapp.net" in
  sock_onWhatsApp sock q w = sock_onWhatsApp sock p w →
  let rp := Index.sendMessage sock p message w in
  let rq := Index.sendMessage sock q message w in
  result_of rp = result_of rq ∧ world_of rp = world_of rq ∧
  sends (trace_of rp) = sends (trace_of rq).
Proof.
  intros Hb q Hsame rp rq. subst rp rq q. unfold_run.
  rewrite Hsame, Hb, includes_qualified.
  destruct (sock_onWhatsApp sock p w) as [? [[[|[[] ?] ?]|]|?]]; simpl; try done.
  by destruct (sock_sendMessage sock _ message _) as [? [[?|]|?]].
Qed.

Lemma example_sendMessage_agree (p message : string) (w : W) :
  includes p "@" = false →
  let q := p +:+ "@s.whatsapp.net" in
  sock_onWhatsApp sock q w = sock_onWhatsApp sock p w →
  let rp := Example.sendMessage sock p message w in
  let rq := Example.sendMessage sock q message w in
  result_of rp = result_of rq ∧ world_of rp = world_of rq ∧
  sends (trace_of rp) = sends (trace_of rq).
Proof.
  intros Hb q Hsame rp rq. subst rp rq q. unfold_run.
  rewrite Hsame, Hb, includes_qualified.
  destruct (sock_onWhatsApp sock p w) as [? [[[|[[] ?] ?]|]|?]]; simpl; try done.
  by destruct (sock_sendMessage sock _ message _) as [? [[?|]|?]].
Qed.

Lemma index_sendMessage_trace (phoneNumber message : string) (w : W) :
  let jid := if includes phoneNumber "@" then phoneNumber
             else phoneNumber +:+ "@s.whatsapp.net" in
  let t := trace_of (Index.sendMessage sock phoneNumber message w) in
  queries t = [phoneNumber] ∧
  (∀ w1 arr, sock_onWhatsApp sock phoneNumber w = (w1, Normal (Some arr)) →
             reports_exists arr = true → sends t = [(jid, message)]).
Proof.
  send_cases sock phoneNumber w; split; try done; by intros ? ? [= <- <-].
Qed.

Lemma example_sendMessage_trace (phoneNumber message : string) (w : W) :
  let jid := if includes phoneNumber "@" then phoneNumber
             else phoneNumber +:+ "@s.whatsapp.net" in
  let t := trace_of (Example.sendMessage sock phoneNumber message w) in
  queries t = [phoneNumber] ∧
  (∀ w1 arr, sock_onWhatsApp sock phoneNumber w = (w1, Normal (Some arr)) →
             reports_exists arr = true → sends t = [(jid, message)]).
Proof.
  send_cases sock phoneNumber w; split; try done; by intros ? ? [= <- <-].
Qed.

(** C1, as the code has it: the query is issued with the destination
    exactly as it was passed, bare for the bare form and qualified for the
    qualified form; when the socket answers the two queries alike and
    finds the destination, both calls send to the qualified form and end
    with the same outcome. *)
Theorem sendMessage_bare_and_qualified
    (p message : string) (w w1 : W) (arr : list OnWhatsAppResult) :
  includes p "@" = false →
  let q := p +:+ "@s.whatsapp.net" in
  sock_onWhatsApp sock p w = (w1, Normal (Some arr)) →
  sock_onWhatsApp sock q w = (w1, Normal (Some arr)) →
  reports_exists arr = true →
  (let rp := Index.sendMessage sock p message w in
   let rq := Index.sendMessage sock q message w in
   queries (trace_of rp) = [p] ∧ queries (trace_of rq) = [q] ∧
   sends (trace_of rp) = [(q, message)] ∧ sends (trace_of rq) = [(q, message)] ∧
   result_of rp = result_of rq ∧ world_of rp = world_of rq) ∧
  (let rp := Example.sendMessage sock p message w in
   let rq := Example.sendMessage sock q message w in
   queries (trace_of rp) = [p] ∧ queries (trace_of rq) = [q] ∧
   sends (trace_of rp) = [(q, message)] ∧ sends (trace_of rq) = [(q, message)] ∧
   result_of rp = result_of rq ∧ world_of rp = world_of rq).
Proof.
  intros Hb q Hp Hq Hex.
  assert (sock_onWhatsApp sock q w = sock_onWhatsApp sock p w) as Hsame by congruence.
  split; intros rp rq; subst rp rq.
  - destruct (index_sendMessage_trace p message w) as [Hqp Hsp].
    destruct (index_sendMessage_trace q message w) as [Hqq Hsq].
    destruct (index_sendMessage_agree p message w Hb Hsame) as (Hr & Hw & _).
    specialize (Hsp _ _ Hp Hex). specialize (Hsq _ _ Hq Hex).
    subst q. rewrite includes_qualified in Hsq. rewrite Hb in Hsp. done.
  - destruct (example_sendMessage_trace p message w) as [Hqp Hsp].
    destruct (example_sendMessage_trace q message w) as [Hqq Hsq].
    destruct (example_sendMessage_agree p message w Hb Hsame) as (Hr & Hw & _).
    specialize (Hsp _ _ Hp Hex). specialize (Hsq _ _ Hq Hex).
    subst q. rewrite includes_qualified in Hsq. rewrite Hb in Hsp. done.
Qed.
End SendMessage.

Lemma sendMessage_sends_to_normalized_witness :
  let t := trace_of (Index.sendMessage Samples.sock_reachable "79123456789" "Привет!" 0) in
  (normalized "79123456789" "79123456789@s.whatsapp.net" ∧ "Привет!" = "Привет!") ∧
  ∃ jid, sends t = [(jid, "Привет!")] ∧ normalized "79123456789" jid.
Proof.
  pose proof (sendMessage_sends_to_normalized
                Samples.sock_reachable "79123456789" "Привет!" 0) as [Hin Hex].
  split.
  - apply Hin. vm_compute. apply list_elem_of_here.
  - apply (Hex 1 [mkOnWA true "79123456789@s.whatsapp.net"]); reflexivity.
Defined.


Lemma sendMessage_query_raises_witness :
  result_of (Index.sendMessage Samples.sock_offline "79123456789" "Тест" 0)
  = Normal (failure "Connection Closed") ∧
  sends (trace_of (Index.sendMessage Samples.sock_offline "79123456789" "Тест" 0)) = [] ∧
  result_of (Index.sendMessage Samples.sock_offline "79123456789" "Тест" 0)
  ≠ Normal (failure Index.NOT_REGISTERED).
Proof.
  pose proof (sendMessage_query_raises Samples.sock_offline "79123456789" "Тест" 0 1
                (mkError "Error" "Connection Closed") eq_refl) as [(Hr & Hs & Hne) _].
  split; [exact Hr | split; [exact Hs | apply Hne; discriminate]].
Defined.

Lemma sendMessage_not_registered_witness :
  (result_of (Index.sendMessage Samples.sock_absent "71111111111" "Тест" 0)
   = Normal (failure Index.NOT_REGISTERED) ∧
   sends (trace_of (Index.sendMessage Samples.sock_absent "71111111111" "Тест" 0)) = []) ∧
  (result_of (Example.sendMessage Samples.sock_not_exists "71111111111" "Тест" 0)
   = Normal (failure Example.NOT_REGISTERED) ∧
   sends (trace_of (Example.sendMessage Samples.sock_not_exists "71111111111" "Тест" 0)) = []).
Proof.
  split.
  - exact (proj1 (sendMessage_not_registered Samples.sock_absent
                    "71111111111" "Тест" 0 1 [] eq_refl eq_refl)).
  - exact (proj2 (sendMessage_not_registered Samples.sock_not_exists
                    "71111111111" "Тест" 0 1 [mkOnWA false "71111111111"] eq_refl eq_refl)).
Defined.

(** C2, as stated, fails: the text of the outcome is not
    "destination not registered". *)
Lemma sendMessage_not_registered_text_differs :
  sock_onWhatsApp Samples.sock_not_exists "71111111111" 0
  = (1, Normal (Some [mkOnWA false "71111111111"])) ∧
  result_of (Index.sendMessage Samples.sock_not_exists "71111111111" "Тест" 0)
  ≠ Normal (failure "destination not registered").
Proof.
  split; [reflexivity|].
  rewrite (index_not_registered Samples.sock_not_exists
             "71111111111" "Тест" 0 1 [mkOnWA false "71111111111"] eq_refl eq_refl).
  intros H.
  assert (Index.NOT_REGISTERED = "destination not registered") as Hd
    by (apply failure_inj; unfold result_of in H; simpl in H; congruence).
  discriminate Hd.
Qed.

Lemma sendMessage_bare_and_qualified_witness :
  let rp := Index.sendMessage Samples.sock_reachable "79123456789" "Привет!" 0 in
  let rq := Index.sendMessage Samples.sock_reachable "79123456789@s.whatsapp.net" "Привет!" 0 in
  queries (trace_of rp) = ["79123456789"] ∧
  queries (trace_of rq) = ["79123456789@s.whatsapp.net"] ∧
  sends (trace_of rp) = [("79123456789@s.whatsapp.net", "Привет!")] ∧
  sends (trace_of rq) = [("79123456789@s.whatsapp.net", "Привет!")] ∧
  result_of rp = result_of rq ∧ world_of rp = world_of rq.
Proof.
  exact (proj1 (sendMessage_bare_and_qualified Samples.sock_reachable
                  "79123456789" "Привет!" 0 1
                  [mkOnWA true "79123456789@s.whatsapp.net"]
                  eq_refl eq_refl eq_refl eq_refl)).
Defined.

(** C1, as stated, fails: for the qualified form the query is issued with
    the qualified form, not with the bare one. *)
Lemma sendMessage_qualified_query_is_qualified :
  queries (trace_of (Index.sendMessage Samples.sock_reachable
                       "79123456789@s.whatsapp.net" "Привет!" 0))
  = ["79123456789@s.whatsapp.net"] ∧
  queries (trace_of (Index.sendMessage Samples.sock_reachable
                       "79123456789@s.whatsapp.net" "Привет!" 0))
  ≠ ["79123456789"].
Proof.
  assert (queries (trace_of (Index.sendMessage Samples.sock_reachable
                               "79123456789@s.whatsapp.net" "Привет!" 0))
          = ["79123456789@s.whatsapp.net"]) as Hq by reflexivity.
  split; [exact Hq|]. rewrite Hq. discriminate.
Qed.

(** ** The observers *)

Lemma for_of_logging {W A} (body : A → M W unit) (tr : A → list Event) :
  (∀ x w, body x w = (w, tr x, Normal tt)) →
  ∀ xs w, for_of xs body w = (w, flat_map tr xs, Normal tt).
Proof.
  intros Hbody xs. induction xs as [|x xs IH]; intros w; simpl.
  - reflexivity.
  - unfold mbind, M_bind, bind. by rewrite Hbody, IH.
Qed.

Section Observers.
Context {W : Type}.
Variable loggedOut : Z.
Variable sock : WASocket W.

(** What the loop of the [messages.upsert] observer logs for one message:
    nothing for a message of our own, two lines for any other. *)
Lemma upsert_logs :
  ∃ tr : WAMessage → list Event,
    (∀ m, truthy_bool (fromMe (key m)) = true → tr m = []) ∧
    (∀ m, truthy_bool (fromMe (key m)) = false → length (tr m) = 2) ∧
    (∀ messages (w : W),
       Index.on_messages_upsert messages "notify" w = (w, flat_map tr messages, Normal tt)).
Proof.
  eexists (λ m, if truthy_bool (fromMe (key m)) then [] else [_; _]).
  split; [by intros m -> | split; [by intros m -> |]].
  intros messages w. unfold Index.on_messages_upsert.
  rewrite bool_decide_eq_false_2 by (intros H; by apply H).
  apply for_of_logging. intros m w'.
  destruct (truthy_bool (fromMe (key m))); reflexivity.
Qed.

(** C8: a message of the batch that is marked [fromMe] is skipped whatever
    it contains, as if it were not in the batch; the other messages of the
    batch are still processed, each in its place. *)
Theorem upsert_skips_own_messages (before after : list WAMessage) (m : WAMessage) (w : W) :
  let run batch := Index.on_messages_upsert batch "notify" w in
  (fromMe (key m) = Val true →
   run [m] = (w, [], Normal tt) ∧ run (before ++ m :: after) = run (before ++ after)) ∧
  (truthy_bool (fromMe (key m)) = false →
   length (trace_of (run [m])) = 2 ∧
   trace_of (run (before ++ m :: after))
   = trace_of (run before) ++ trace_of (run [m]) ++ trace_of (run after)).
Proof.
  destruct upsert_logs as (tr & Hown & Hpeer & Hrun).
  intros run. subst run. simpl. rewrite !Hrun. unfold trace_of. simpl.
  rewrite !flat_map_app. simpl. rewrite app_nil_r. split.
  - intros Hm. rewrite (Hown m) by by rewrite Hm. done.
  - intros Hm. split; [by apply Hpeer | done].
Qed.

(** C9: a batch whose type is not "notify" is skipped as a whole: nothing
    is done for any of its messages. *)
Theorem upsert_skips_backlog (messages : list WAMessage) (type : string) (w : W) :
  type ≠ "notify" →
  Index.on_messages_upsert messages type w = (w, [], Normal tt).
Proof.
  intros Hne. unfold Index.on_messages_upsert. by rewrite bool_decide_eq_true_2.
Qed.

(** C5: on a close event, a reason other than [loggedOut] makes the
    observer wait [delay(3000)] and then restart once; the reason
    [loggedOut] makes it neither wait nor restart. *)
Theorem close_reconnect_policy (update : ConnectionUpdate) (w : W) :
  connection update = Some "close" →
  let ti := trace_of (Index.on_connection_update loggedOut sock update w) in
  let te := trace_of (Example.on_connection_update loggedOut sock update w) in
  (disconnect_statusCode (lastDisconnect update) ≠ Some loggedOut →
   reconnects ti = [Delay 3000; Start] ∧ reconnects te = [Delay 3000; Start]) ∧
  (disconnect_statusCode (lastDisconnect update) = Some loggedOut →
   reconnects ti = [] ∧ reconnects te = []).
Proof.
  intros Hc ti te. subst ti te.
  unfold Index.on_connection_update, Example.on_connection_update. rewrite Hc.
  rewrite (bool_decide_eq_false_2 (Some "close" = Some "open")) by done.
  rewrite (bool_decide_eq_true_2 (Some "close" = Some "close")) by done.
  split; intros Hr.
  - rewrite bool_decide_eq_true_2 by done.
    unfold mbind, M_bind, bind, console_log, emit, ret, trace_of.
    by destruct (truthy_qr (qr update)).
  - rewrite bool_decide_eq_false_2 by (intros H; by apply H).
    unfold mbind, M_bind, bind, console_log, emit, ret, trace_of.
    by destruct (truthy_qr (qr update)).
Qed.
End Observers.

Lemma upsert_skips_own_messages_witness :
  let run batch := Index.on_messages_upsert (W := nat) batch "notify" 0 in
  (run [Samples.own_message "привет"] = (0, [], Normal tt) ∧
   run ([Samples.peer_message "привет"] ++
        Samples.own_message "привет" :: [Samples.peer_message "пока"])
   = run ([Samples.peer_message "привет"] ++ [Samples.peer_message "пока"])) ∧
  (length (trace_of (run [Samples.peer_message "время"])) = 2 ∧
   trace_of (run ([Samples.own_message "привет"] ++
                  Samples.peer_message "время" :: [Samples.peer_message "пока"]))
   = trace_of (run [Samples.own_message "привет"]) ++
     trace_of (run [Samples.peer_message "время"]) ++
     trace_of (run [Samples.peer_message "пока"])).
Proof.
  split.
  - apply (proj1 (upsert_skips_own_messages
                    [Samples.peer_message "привет"] [Samples.peer_message "пока"]
                    (Samples.own_message "привет") 0)).
    reflexivity.
  - apply (proj2 (upsert_skips_own_messages
                    [Samples.own_message "привет"] [Samples.peer_message "пока"]
                    (Samples.peer_message "время") 0)).
    reflexivity.
Defined.

Lemma upsert_skips_backlog_witness :
  Index.on_messages_upsert (W := nat) [Samples.peer_message "привет"] "append" 0
  = (0, [], Normal tt).
Proof.
  apply upsert_skips_backlog. discriminate.
Defined.

Lemma close_reconnect_policy_witness :
  (reconnects (trace_of (Index.on_connection_update Samples.loggedOut
                           Samples.sock_offline (Samples.closed_by 428) 0))
   = [Delay 3000; Start] ∧
   reconnects (trace_of (Example.on_connection_update Samples.loggedOut
                           Samples.sock_offline (Samples.closed_by 428) 0))
   = [Delay 3000; Start]) ∧
  (reconnects (trace_of (Index.on_connection_update Samples.loggedOut
                           Samples.sock_offline (Samples.closed_by 401) 0))
   = [] ∧
   reconnects (trace_of (Example.on_connection_update Samples.loggedOut
                           Samples.sock_offline (Samples.closed_by 401) 0))
   = []).
Proof.
  split.
  - apply (proj1 (close_reconnect_policy Samples.loggedOut Samples.sock_offline
                    (Samples.closed_by 428) 0 eq_refl)).
    discriminate.
  - apply (proj2 (close_reconnect_policy Samples.loggedOut Samples.sock_offline
                    (Samples.closed_by 401) 0 eq_refl)).
    reflexivity.
Defined.

(** * Beyond the claims *)

(** ** Traces of sequenced runs *)

Lemma queries_app (t1 t2 : list Event) : queries (t1 ++ t2) = queries t1 ++ queries t2.
Proof. induction t1 as [|[] t1 IH]; simpl; by rewrite ?IH. Qed.

Lemma sends_app (t1 t2 : list Event) : sends (t1 ++ t2) = sends t1 ++ sends t2.
Proof. induction t1 as [|[] t1 IH]; simpl; by rewrite ?IH. Qed.

Lemma delays_app (t1 t2 : list Event) : delays (t1 ++ t2) = delays t1 ++ delays t2.
Proof. induction t1 as [|[] t1 IH]; simpl; by rewrite ?IH. Qed.

Lemma calls_and_waits_app (t1 t2 : list Event) :
  calls_and_waits (t1 ++ t2) = calls_and_waits t1 ++ calls_and_waits t2.
Proof. induction t1 as [|[] t1 IH]; simpl; by rewrite ?IH. Qed.

Lemma socket_calls_app (t1 t2 : list Event) :
  socket_calls (t1 ++ t2) = socket_calls t1 ++ socket_calls t2.
Proof. induction t1 as [|[] t1 IH]; simpl; by rewrite ?IH. Qed.

(** ** More on [sendMessage] *)

(** As [send_cases], keeping the answers of the socket as equations. *)
Ltac send_cases_eqn sock p w Hq Hs :=
  unfold_run;
  destruct (sock_onWhatsApp sock p w) as [? [[[|[[] ?] ?]|]|?]] eqn:Hq; simpl;
  try match goal with
      | |- context [sock_sendMessage sock ?j ?m ?w1] =>
          destruct (sock_sendMessage sock j m w1) as [? [[?|]|?]] eqn:Hs; simpl
      end.

Section SendMessageMore.
Context {W : Type}.
Variable sock : WASocket W.

(** A success outcome is returned exactly when the query found the
    destination and the send resolved to a message; it then carries the id
    and the timestamp of that message. *)
Theorem sendMessage_success_iff (phoneNumber message : string) (w : W) (o : JsObject) :
  result_of (Index.sendMessage sock phoneNumber message w) = Normal o →
  (o !! "success" = Some (JBool true) ↔
   ∃ w1 arr w2 msg,
     sock_onWhatsApp sock phoneNumber w = (w1, Normal (Some arr)) ∧
     reports_exists arr = true ∧
     sock_sendMessage sock (jid_of phoneNumber) message w1 = (w2, Normal (Some msg)) ∧
     o = delivered (js_of_nullable JStr (id (key msg)))
                   (js_of_nullable JNum (messageTimestamp msg))).
Proof.
  unfold jid_of.
  send_cases_eqn sock phoneNumber w Hq Hs; intros [= <-]; fold_outcomes; rewrite_outcomes;
    (split; [intros [=] | intros (w1' & arr & w2' & msg & [= <- <-] & Hex & Hsend & Ho)]);
    try discriminate Hex; try done;
    try (rewrite Hs in Hsend; discriminate Hsend).
  repeat eexists; eauto.
Qed.

(** The query always comes first, with the destination as it was passed;
    the send follows only when the query resolved to an array whose first
    element reports the destination as existing, and nothing else is asked
    of the socket. *)
Theorem sendMessage_socket_calls (phoneNumber message : string) (w : W) :
  let t := trace_of (Index.sendMessage sock phoneNumber message w) in
  (socket_calls t = [OnWhatsApp phoneNumber] ∨
   socket_calls t = [OnWhatsApp phoneNumber; SockSendMessage (jid_of phoneNumber) message]) ∧
  (sends t ≠ [] ↔
   ∃ w1 arr, sock_onWhatsApp sock phoneNumber w = (w1, Normal (Some arr)) ∧
             reports_exists arr = true).
Proof.
  unfold jid_of.
  send_cases_eqn sock phoneNumber w Hq Hs;
    (split; [auto | split; [intros Hne | intros (w1' & arr & [= <- <-] & Hex) Hne]]);
    try done; by repeat eexists.
Qed.

(** The two copies of [sendMessage] ask the same of the socket, leave it in
    the same state and return the same outcome, except for the text of the
    not-registered outcome. *)
Theorem sendMessage_copies_agree (phoneNumber message : string) (w : W) :
  let ri := Index.sendMessage sock phoneNumber message w in
  let re := Example.sendMessage sock phoneNumber message w in
  world_of ri = world_of re ∧
  socket_calls (trace_of ri) = socket_calls (trace_of re) ∧
  (result_of ri = result_of re ∨
   (result_of ri = Normal (failure Index.NOT_REGISTERED) ∧
    result_of re = Normal (failure Example.NOT_REGISTERED) ∧
    sends (trace_of ri) = [])).
Proof.
  send_cases sock phoneNumber w; repeat split; auto.
Qed.

Lemma includes_jid_of (phoneNumber : string) : includes (jid_of phoneNumber) "@" = true.
Proof.
  unfold jid_of. destruct (includes phoneNumber "@") eqn:H; [done|].
  apply includes_qualified.
Qed.

Lemma jid_of_idempotent (phoneNumber : string) : jid_of (jid_of phoneNumber) = jid_of phoneNumber.
Proof. unfold jid_of at 1. by rewrite includes_jid_of. Qed.

(** Normalization is idempotent: an address that a call sent to is sent to
    unchanged when it is passed as the destination of another call. *)
Theorem sendMessage_address_is_stable
    (phoneNumber message message' jid body jid' body' : string) (w w' : W) :
  (jid, body) ∈ sends (trace_of (Index.sendMessage sock phoneNumber message w)) →
  (jid', body') ∈ sends (trace_of (Index.sendMessage sock jid message' w')) →
  jid' = jid ∧ body' = message'.
Proof.
  intros H1 H2.
  assert (∀ p m w0 j b,
            (j, b) ∈ sends (trace_of (Index.sendMessage sock p m w0)) →
            j = jid_of p ∧ b = m) as Hsent.
  { intros p m w0 j b. unfold jid_of.
    send_cases sock p w0; simpl; intros Hin;
      first [ by apply elem_of_nil in Hin
            | apply list_elem_of_singleton in Hin; by injection Hin as -> -> ]. }
  apply Hsent in H1 as [-> _]. apply Hsent in H2 as [-> ->].
  by rewrite jid_of_idempotent.
Qed.

(** The copy of [sendMessage] in example.js never throws either, issues
    exactly one query, with the destination as passed, and at most one
    send, to the normalized destination. *)
Theorem example_sendMessage_bounded (phoneNumber message : string) (w : W) :
  let r := Example.sendMessage sock phoneNumber message w in
  (∃ o, result_of r = Normal o) ∧
  queries (trace_of r) = [phoneNumber] ∧
  (sends (trace_of r) = [] ∨ sends (trace_of r) = [(jid_of phoneNumber, message)]).
Proof.
  unfold jid_of. send_cases sock phoneNumber w; repeat split; eauto.
Qed.
End SendMessageMore.

(** ** The example flows *)

Lemma for_of_app {W A} (xs ys : list A) (body : A → M W unit) (w : W) :
  for_of (xs ++ ys) body w = (for_of xs body;; for_of ys body) w.
Proof.
  revert w. induction xs as [|x xs IH]; intros w; simpl.
  - unfold mbind, M_bind, bind, ret. by destruct (for_of ys body w) as [[? ?] ?].
  - unfold mbind, M_bind, bind in *.
    destruct (body x w) as [[w1 t1] [[]|e]]; [|done].
    rewrite IH. destruct (for_of xs body w1) as [[w2 t2] [[]|e]]; [|done].
    destruct (for_of ys body w2) as [[w3 t3] r]. by rewrite app_assoc.
Qed.

Lemma bind_normal {W A B} (m : M W A) (k : A → M W B) (w w1 : W) t1 a :
  m w = (w1, t1, Normal a) →
  (m ≫= k) w = (world_of (k a w1), t1 ++ trace_of (k a w1), result_of (k a w1)).
Proof.
  intros H. unfold mbind, M_bind, bind. rewrite H.
  by destruct (k a w1) as [[? ?] ?].
Qed.

Lemma bind_throw {W A B} (m : M W A) (k : A → M W B) (w w1 : W) t1 e :
  m w = (w1, t1, Throw e) → (m ≫= k) w = (w1, t1, Throw e).
Proof. intros H. unfold mbind, M_bind, bind. by rewrite H. Qed.

Section Flows.
Context {W : Type}.
Variable sock : WASocket W.

(** One round of the loop of [example2_sendMultipleMessages]. *)
Lemma example2_round (msg : Examples.Outgoing) (w : W) :
  ∃ w1 t,
    (Example.sendMessage sock (Examples.phone msg) (Examples.text msg);;
     emit (Delay 2000)) w = (w1, t, Normal tt) ∧
    queries t = [Examples.phone msg] ∧ delays t = [2000%Z] ∧
    (sends t = [] ∨ sends t = [(jid_of (Examples.phone msg), Examples.text msg)]) ∧
    (∀ w' arr, sock_onWhatsApp sock (Examples.phone msg) w = (w', Normal (Some arr)) →
               reports_exists arr = true →
               sends t = [(jid_of (Examples.phone msg), Examples.text msg)]).
Proof.
  destruct msg as [p m]. unfold jid_of. simpl.
  send_cases sock p w; do 2 eexists; (split; [reflexivity|]); simpl;
    repeat split; auto; by intros ? ? [= <- <-].
Qed.

(** The calls and the wait of one round, in their order. *)
Lemma example2_round_steps (msg : Examples.Outgoing) (w : W) :
  let r := (Example.sendMessage sock (Examples.phone msg) (Examples.text msg);;
            emit (Delay 2000)) w in
  calls_and_waits (trace_of r) = [OnWhatsApp (Examples.phone msg); Delay 2000] ∨
  calls_and_waits (trace_of r)
  = [OnWhatsApp (Examples.phone msg);
     SockSendMessage (jid_of (Examples.phone msg)) (Examples.text msg);
     Delay 2000].
Proof.
  destruct msg as [p m]. unfold jid_of. simpl.
  send_cases sock p w; auto.
Qed.

(** The loop of [example2_sendMultipleMessages] never throws and never
    stops early: it queries every phone of the list, in order, and waits
    [delay(2000)] after every message, whether that message went out or
    not; what it sends is, in order, part of the list.  Message by message,
    what it asks of the socket and when it waits is one round: the query
    for the phone, the send when there is one, then the wait, which so
    comes before the query of the next message and after the last. *)
Theorem example2_visits_every_message (messages : list Examples.Outgoing) (w : W) :
  let r := Examples.example2_sendMultipleMessages sock messages w in
  result_of r = Normal tt ∧
  queries (trace_of r) = Examples.phone <$> messages ∧
  delays (trace_of r) = replicate (length messages) 2000%Z ∧
  sends (trace_of r) `sublist_of`
    ((λ msg, (jid_of (Examples.phone msg), Examples.text msg)) <$> messages) ∧
  ∃ rounds : list (list Event),
    calls_and_waits (trace_of r) = concat rounds ∧
    Forall2 (λ msg round,
               round = [OnWhatsApp (Examples.phone msg); Delay 2000] ∨
               round = [OnWhatsApp (Examples.phone msg);
                        SockSendMessage (jid_of (Examples.phone msg)) (Examples.text msg);
                        Delay 2000])
            messages rounds.
Proof.
  revert w. unfold Examples.example2_sendMultipleMessages.
  induction messages as [|msg messages IH]; intros w; simpl.
  - repeat split; try done. exists []. split; [done | constructor].
  - destruct (example2_round msg w) as (w1 & t & Hrun & Hq & Hd & Hs & _).
    pose proof (example2_round_steps msg w) as Hst. simpl in Hst. rewrite Hrun in Hst.
    pose proof (IH w1) as IH1. simpl in IH1.
    rewrite (bind_normal _ _ _ _ _ _ Hrun).
    set (rest := for_of messages _ w1) in *.
    unfold result_of, trace_of, world_of in *. simpl in *.
    destruct IH1 as (IHr & IHq & IHd & IHs & rounds & IHc & IHf).
    rewrite queries_app, delays_app, sends_app, calls_and_waits_app, Hq, Hd, IHq, IHd.
    split; [done | split; [done | split; [done | split]]].
    + destruct Hs as [-> | ->]; simpl.
      * by apply sublist_cons.
      * by apply sublist_skip.
    + exists (calls_and_waits t :: rounds). simpl. rewrite IHc.
      split; [done | by constructor].
Qed.

(** When the socket finds every destination it is asked about, the loop of
    [example2_sendMultipleMessages] issues a send for every message of the
    list, in order, each to the normalized phone with the text of the
    message. *)
Theorem example2_sends_every_message (messages : list Examples.Outgoing) (w : W) :
  (∀ p w0, ∃ w1 arr, sock_onWhatsApp sock p w0 = (w1, Normal (Some arr)) ∧
                     reports_exists arr = true) →
  sends (trace_of (Examples.example2_sendMultipleMessages sock messages w))
  = (λ msg, (jid_of (Examples.phone msg), Examples.text msg)) <$> messages.
Proof.
  intros Hfound. revert w. unfold Examples.example2_sendMultipleMessages.
  induction messages as [|msg messages IH]; intros w; simpl.
  - done.
  - destruct (example2_round msg w) as (w1 & t & Hrun & _ & _ & _ & Hs).
    destruct (Hfound (Examples.phone msg) w) as (w' & arr & Hq & Hex).
    specialize (Hs _ _ Hq Hex). pose proof (IH w1) as IH1. simpl in IH1.
    rewrite (bind_normal _ _ _ _ _ _ Hrun).
    set (rest := for_of messages _ w1) in *.
    unfold trace_of in *. simpl in *.
    by rewrite sends_app, Hs, IH1.
Qed.

(** One round of the loop of [example4_checkNumbers]. *)
Lemma example4_round (number : string) (w : W) :
  let body :=
    (answer ← call (OnWhatsApp number) (sock_onWhatsApp sock number);
     result ← destructure_first answer;
     if match result with Some r => exists_ r | None => false end then
       console_log [JStr ("✅ " +:+ number +:+ " - зарегистрирован в WhatsApp")]
     else
       console_log [JStr ("❌ " +:+ number +:+ " - НЕ зарегистрирован")]) in
  ∃ w1 t r, body w = (w1, t, r) ∧ queries t = [number] ∧ sends t = [] ∧
            (r = Normal tt → length t = 2) ∧
            w1 = (sock_onWhatsApp sock number w).1 ∧
            match (sock_onWhatsApp sock number w).2 with
            | Normal (Some arr) =>
                r = Normal tt ∧
                t = [OnWhatsApp number;
                     ConsoleLog [JStr (if reports_exists arr
                                       then "✅ " +:+ number +:+ " - зарегистрирован в WhatsApp"
                                       else "❌ " +:+ number +:+ " - НЕ зарегистрирован")]]
            | Normal None =>
                r = Throw (TypeError
                  "(intermediate value) is not iterable") ∧
                t = [OnWhatsApp number]
            | Throw e => r = Throw e ∧ t = [OnWhatsApp number]
            end.
Proof.
  intros body. subst body.
  unfold mbind, M_bind, bind, call, destructure_first, console_log, emit, ret, throw.
  destruct (sock_onWhatsApp sock number w) as [w1 [[[|[[] ?] ?]|]|e]]; simpl;
    do 3 eexists; (split; [reflexivity|]); simpl; repeat split; done.
Qed.

(** [example4_checkNumbers] only queries: it never sends, it asks about
    the numbers in the order of the list, and when it comes to its end it
    has asked about every number and logged one line for each. *)
Theorem example4_only_queries (numbersToCheck : list string) (w : W) :
  let r := Examples.example4_checkNumbers sock numbersToCheck w in
  sends (trace_of r) = [] ∧
  queries (trace_of r) `prefix_of` numbersToCheck ∧
  (result_of r = Normal tt →
   queries (trace_of r) = numbersToCheck ∧
   length (trace_of r) = 2 * length numbersToCheck).
Proof.
  revert w. unfold Examples.example4_checkNumbers.
  induction numbersToCheck as [|n numbers IH]; intros w; simpl.
  - by repeat split.
  - destruct (example4_round n w) as (w1 & t & r & Hrun & Hq & Hs & Hlen & _).
    simpl in Hrun. destruct r as [[]|e].
    + pose proof (IH w1) as IH1. simpl in IH1.
      rewrite (bind_normal _ _ _ _ _ _ Hrun).
      set (rest := for_of numbers _ w1) in *.
      unfold result_of, trace_of in *. simpl in *.
      destruct IH1 as (IHs & IHq & IHn).
      rewrite sends_app, queries_app, Hs, Hq, IHs, length_app, Hlen by done.
      split; [done | split].
      * by apply prefix_cons.
      * intros Hr. destruct (IHn Hr) as [-> ->]. split; [done | lia].
    + rewrite (bind_throw _ _ _ _ _ _ Hrun).
      unfold result_of, trace_of. simpl. rewrite Hs, Hq.
      split; [done | split; [|done]]. apply prefix_cons, prefix_nil.
Qed.

(** The loop of [example4_checkNumbers] is not guarded: when the query
    for a number is rejected, or resolves to [undefined], the flow throws
    and the numbers after it are never asked about. *)
Theorem example4_stops_at_first_failure
    (before after : list string) (number : string) (w w1 : W) :
  let rb := Examples.example4_checkNumbers sock before w in
  let r := Examples.example4_checkNumbers sock (before ++ number :: after) w in
  result_of rb = Normal tt →
  (∀ e, sock_onWhatsApp sock number (world_of rb) = (w1, Throw e) →
        r = (w1, trace_of rb ++ [OnWhatsApp number], Throw e)) ∧
  (sock_onWhatsApp sock number (world_of rb) = (w1, Normal None) →
   r = (w1, trace_of rb ++ [OnWhatsApp number],
        Throw (TypeError
          "(intermediate value) is not iterable"))).
Proof.
  intros rb r Hrb. subst r rb.
  unfold Examples.example4_checkNumbers in *. rewrite for_of_app.
  destruct (for_of before _ w) as [[wb tb] rb] eqn:Hb.
  unfold result_of, world_of, trace_of in *. simpl in *. subst rb.
  rewrite (bind_normal _ _ _ _ _ _ Hb). simpl.
  destruct (example4_round number wb) as (w2 & t & r & Hrun & _ & _ & _ & Hw & Hcase).
  simpl in Hrun.
  split; [intros e Hq | intros Hq]; rewrite Hq in Hw, Hcase; simpl in *;
    destruct Hcase as [-> ->]; subst w2;
    rewrite (bind_throw _ _ _ _ _ _ Hrun); done.
Qed.
End Flows.

(** ** The auto-responder of example.js *)

Section Responder.
Context {W : Type}.
Variable sock : WASocket W.
Variable toLowerCase : string → string.
Variable now : W → string.
Variable send_nowhere : string → W → W * Completion (option WAMessage).

#[local] Abbreviation respond :=
  (Examples.on_messages_upsert sock toLowerCase now send_nowhere).

Lemma respond_cons (m : WAMessage) (messages : list WAMessage) (w : W) :
  respond (m :: messages) "notify" w
  = (respond [m] "notify";; respond messages "notify") w.
Proof.
  unfold Examples.on_messages_upsert.
  rewrite bool_decide_eq_false_2 by (intros H; by apply H).
  apply (for_of_app [m] messages).
Qed.

(** What the auto-responder does with a single message. *)
Lemma respond_one (m : WAMessage) (w : W) :
  ∃ w1 t r,
    respond [m] "notify" w = (w1, t, r) ∧ queries t = [] ∧
    (from_peer m = false → w1 = w ∧ t = [] ∧ r = Normal tt) ∧
    (sends t = [] ∨
     ∃ body, from_peer m = true ∧ is_reply now body ∧
             sends t = [(template (remoteJid (key m)), body)]).
Proof.
  unfold Examples.on_messages_upsert, from_peer, is_reply.
  rewrite bool_decide_eq_false_2 by (intros H; by apply H).
  simpl. destruct (truthy_bool (fromMe (key m))).
  { do 3 eexists. split; [reflexivity|]. simpl. repeat split; auto. }
  unfold mbind, M_bind, bind, console_log, emit, Examples.reply, call, ret.
  repeat match goal with
         | |- context [if includes ?a ?b then _ else _] => destruct (includes a b)
         end;
    try match goal with
        | |- context [match remoteJid (key m) with _ => _ end ?w0] =>
            destruct (match remoteJid (key m) with
                      | Val jid => sock_sendMessage sock jid _
                      | _ => send_nowhere _
                      end w0) as [? [?|?]]
        end;
    do 3 eexists; (split; [reflexivity|]); simpl;
    (split; [done | split; [done |]]); eauto 10.
Qed.

(** The auto-responder answers peers only: every send of a run goes to
    the sender of a message of the batch that is not our own and carries
    one of the three replies; there is at most one send per such message,
    none for a batch that is not "notify", and the socket is never
    queried. *)
Theorem responder_replies_to_peers (messages : list WAMessage) (type : string) (w : W) :
  let t := trace_of (respond messages type w) in
  (∀ jid body, (jid, body) ∈ sends t →
               type = "notify" ∧ is_reply now body ∧
               ∃ m, m ∈ messages ∧ from_peer m = true ∧
                    jid = template (remoteJid (key m))) ∧
  length (sends t) ≤ length (filter (λ m, from_peer m = true) messages) ∧
  queries t = [].
Proof.
  destruct (decide (type = "notify")) as [->|Hne].
  2: { unfold Examples.on_messages_upsert. rewrite bool_decide_eq_true_2 by done.
       simpl. split; [| split; [simpl; lia | done]].
       intros ? ? Hin. by apply elem_of_nil in Hin. }
  revert w. induction messages as [|m messages IH]; intros w.
  { unfold Examples.on_messages_upsert.
    rewrite bool_decide_eq_false_2 by (intros H; by apply H).
    simpl. split; [| split; [simpl; lia | done]].
    intros ? ? Hin. by apply elem_of_nil in Hin. }
  rewrite respond_cons.
  destruct (respond_one m w) as (w1 & t1 & r & Hrun & Hq & _ & Hs).
  destruct r as [[]|e].
  - rewrite (bind_normal _ _ _ _ _ _ Hrun).
    destruct (IH w1) as (IHin & IHlen & IHq).
    set (rest := respond messages "notify" w1) in *.
    unfold trace_of in *. simpl in *.
    rewrite sends_app, queries_app, Hq, IHq, length_app, filter_cons.
    split; [|split; [|done]].
    + intros jid body [Hin|Hin]%elem_of_app.
      * destruct Hs as [Hs | (b & Hp & Hb & Hs)]; rewrite Hs in Hin;
          [by apply elem_of_nil in Hin|].
        apply list_elem_of_singleton in Hin. injection Hin as -> ->.
        split; [done | split; [done|]]. exists m. split; [left | done].
      * destruct (IHin _ _ Hin) as (_ & Hb & m' & Hm' & Hp & Hj).
        split; [done | split; [done|]]. exists m'. split; [by right | done].
    + destruct Hs as [Hs | (b & Hp & Hb & Hs)]; rewrite Hs; simpl.
      * case_decide; simpl; lia.
      * rewrite decide_True by done. simpl. lia.
  - rewrite (bind_throw _ _ _ _ _ _ Hrun).
    unfold trace_of. simpl. rewrite Hq, filter_cons.
    split; [|split; [|done]].
    + intros jid body Hin.
      destruct Hs as [Hs | (b & Hp & Hb & Hs)]; rewrite Hs in Hin;
        [by apply elem_of_nil in Hin|].
      apply list_elem_of_singleton in Hin. injection Hin as -> ->.
      split; [done | split; [done|]]. exists m. split; [left | done].
    + destruct Hs as [Hs | (b & Hp & Hb & Hs)]; rewrite Hs; simpl.
      * lia.
      * rewrite decide_True by done. simpl. lia.
Qed.

(** The auto-responder does not guard its replies: when the socket rejects
    the reply to a message, the observer throws that error, having sent
    nothing but the rejected reply for that message, and the messages
    after it in the batch get no answer. *)
Theorem responder_stops_when_reply_fails
    (before after : list WAMessage) (m : WAMessage) (jid : string) (w w1 : W) (e : JsError) :
  let rb := respond before "notify" w in
  let r := respond (before ++ m :: after) "notify" w in
  result_of rb = Normal tt →
  from_peer m = true →
  remoteJid (key m) = Val jid →
  includes (toLowerCase (message_text m)) "привет" = true →
  sock_sendMessage sock jid Examples.GREETING (world_of rb) = (w1, Throw e) →
  result_of r = Throw e ∧ world_of r = w1 ∧
  sends (trace_of r) = sends (trace_of rb) ++ [(jid, Examples.GREETING)].
Proof.
  intros rb r Hrb Hpeer Hjid Hkey Hsend. subst rb r.
  unfold Examples.on_messages_upsert in *.
  rewrite bool_decide_eq_false_2 in * by (intros H; by apply H).
  rewrite for_of_app.
  destruct (for_of before _ w) as [[wb tb] rb] eqn:Hb.
  unfold result_of, world_of, trace_of in *. simpl in *. subst rb.
  rewrite (bind_normal _ _ _ _ _ _ Hb).
  unfold from_peer in Hpeer. apply negb_true_iff in Hpeer.
  fold (message_text m). rewrite Hpeer, Hkey, Hjid.
  unfold mbind, M_bind, bind, console_log, emit, Examples.reply, call, ret,
    result_of, world_of, trace_of.
  unfold Examples.GREETING in Hsend. rewrite Hsend. simpl.
  by rewrite sends_app.
Qed.
End Responder.

(** ** More on the observers *)

Lemma includes_char_cons (c sep : ascii) (s : string) :
  includes (String c s) (String sep EmptyString) = false →
  Ascii.eqb c sep = false ∧ includes s (String sep EmptyString) = false.
Proof.
  rewrite includes_unfold. simpl.
  destruct (ascii_dec sep c) as [->|Hne].
  - by destruct s.
  - intros H. split; [|done]. apply Ascii.eqb_neq. congruence.
Qed.

(** [split(sep)[0]] gives back what stands before the first separator. *)
Lemma split0_before (sep : ascii) (s rest : string) :
  includes s (String sep EmptyString) = false →
  split0 sep (s +:+ String sep rest) = s ∧ split0 sep s = s.
Proof.
  induction s as [|c s IH]; intros H.
  - rewrite append_nil. simpl. by rewrite Ascii.eqb_refl.
  - apply includes_char_cons in H as [Hc Hs]. rewrite append_cons. simpl.
    rewrite Hc. destruct (IH Hs) as [-> ->]. done.
Qed.

Lemma reconnects_app (t1 t2 : list Event) :
  reconnects (t1 ++ t2) = reconnects t1 ++ reconnects t2.
Proof. induction t1 as [|[] t1 IH]; simpl; by rewrite ?IH. Qed.

Lemma qr_codes_app (t1 t2 : list Event) :
  qr_codes (t1 ++ t2) = qr_codes t1 ++ qr_codes t2.
Proof. induction t1 as [|[] t1 IH]; simpl; by rewrite ?IH. Qed.

Ltac unfold_observer :=
  unfold Index.on_connection_update, Example.on_connection_update,
    mbind, M_bind, bind, console_log, emit, get_prop, ret, throw,
    trace_of, result_of, world_of.

Section ObserversMore.
Context {W : Type}.
Variable loggedOut : Z.
Variable sock : WASocket W.

(** The connection observers restart on close events only: an update
    whose connection is anything else, or missing, never makes them wait
    or restart, whatever else it carries. *)
Theorem restart_only_on_close (update : ConnectionUpdate) (w : W) :
  connection update ≠ Some "close" →
  reconnects (trace_of (Index.on_connection_update loggedOut sock update w)) = [] ∧
  reconnects (trace_of (Example.on_connection_update loggedOut sock update w)) = [].
Proof.
  intros Hc. unfold_observer.
  rewrite (bool_decide_eq_false_2 (connection update = Some "close")) by done.
  destruct (truthy_qr (qr update)); case_bool_decide; simpl;
    destruct (sock_user_id sock w); done.
Qed.

(** A pairing code that comes with an update is rendered exactly once,
    before anything else is decided, and nothing is rendered for an update
    without one or with an empty one. *)
Theorem qr_rendered_once (update : ConnectionUpdate) (w : W) :
  let ti := trace_of (Index.on_connection_update loggedOut sock update w) in
  let te := trace_of (Example.on_connection_update loggedOut sock update w) in
  let expected := match qr update with
                  | Some (String c q) => [String c q]
                  | _ => []
                  end in
  qr_codes ti = expected ∧ qr_codes te = expected.
Proof.
  unfold_observer.
  destruct (qr update) as [[|c q]|]; simpl;
    repeat case_bool_decide; simpl;
    destruct (sock_user_id sock w); done.
Qed.

(** On an open event the observers log the account number, the part of
    [sock.user.id] before the first ':' (the whole id when it has none),
    and end normally. *)
Theorem open_logs_number (update : ConnectionUpdate) (w : W) (number rest : string) :
  connection update = Some "open" →
  includes number ":" = false →
  sock_user_id sock w = Some (number +:+ ":" +:+ rest) ∨
  sock_user_id sock w = Some number →
  let ri := Index.on_connection_update loggedOut sock update w in
  let re := Example.on_connection_update loggedOut sock update w in
  (result_of ri = Normal tt ∧
   ConsoleLog [JStr "📞 Номер:"; JStr number] ∈ trace_of ri) ∧
  (result_of re = Normal tt ∧
   ConsoleLog [JStr ("📞 Номер: " +:+ number +:+ nl)] ∈ trace_of re).
Proof.
  intros Hc Hn Hid ri re. subst ri re.
  assert (split0 ":" (number +:+ ":" +:+ rest) = number) as Hs1
    by exact (proj1 (split0_before ":" number rest Hn)).
  assert (split0 ":" number = number) as Hs2
    by exact (proj2 (split0_before ":" number rest Hn)).
  unfold_observer. rewrite Hc.
  rewrite (bool_decide_eq_true_2 (Some "open" = Some "open")) by done.
  rewrite (bool_decide_eq_false_2 (Some "open" = Some "close")) by done.
  destruct (truthy_qr (qr update)); simpl;
    destruct Hid as [Hid | Hid]; rewrite Hid; simpl; rewrite ?Hs1, ?Hs2;
    repeat split; try done; repeat constructor.
Qed.

(** The observers read [sock.user.id] unguarded: an open event that
    arrives while [sock.user] is still undefined makes them throw a
    TypeError. *)
Theorem open_without_user_throws (update : ConnectionUpdate) (w : W) :
  connection update = Some "open" →
  sock_user_id sock w = None →
  let e := TypeError "Cannot read properties of undefined (reading 'id')" in
  result_of (Index.on_connection_update loggedOut sock update w) = Throw e ∧
  result_of (Example.on_connection_update loggedOut sock update w) = Throw e.
Proof.
  intros Hc Hid e. subst e. unfold_observer. rewrite Hc.
  rewrite (bool_decide_eq_true_2 (Some "open" = Some "open")) by done.
  destruct (truthy_qr (qr update)); simpl; by rewrite Hid.
Qed.

Lemma index_upsert_lines :
  ∃ tr : WAMessage → list Event,
    (∀ m, socket_calls (tr m) = []) ∧
    (∀ m, length (tr m) = if from_peer m then 2 else 0) ∧
    (∀ messages (w : W),
       Index.on_messages_upsert messages "notify" w = (w, flat_map tr messages, Normal tt)).
Proof.
  eexists (λ m, if truthy_bool (fromMe (key m)) then [] else [ConsoleLog _; ConsoleLog _]).
  unfold from_peer.
  split; [intros m; by destruct (truthy_bool _) | split; [intros m; by destruct (truthy_bool _) |]].
  intros messages w. unfold Index.on_messages_upsert.
  rewrite bool_decide_eq_false_2 by (intros H; by apply H).
  apply for_of_logging. intros m w'.
  destruct (truthy_bool (fromMe (key m))); reflexivity.
Qed.

(** The inbound observer of index.js is receive-only: it asks nothing of
    the socket, never throws and prints two lines for every message of a
    "notify" batch that is not our own. *)
Theorem index_upsert_only_logs (messages : list WAMessage) (type : string) (w : W) :
  let r := Index.on_messages_upsert messages type w in
  world_of r = w ∧ result_of r = Normal tt ∧ socket_calls (trace_of r) = [] ∧
  (type = "notify" →
   length (trace_of r) = 2 * length (filter (λ m, from_peer m = true) messages)).
Proof.
  destruct (decide (type = "notify")) as [->|Hne].
  2: { unfold Index.on_messages_upsert. rewrite bool_decide_eq_true_2 by done.
       by repeat split. }
  destruct index_upsert_lines as (tr & Hcalls & Hlen & Hrun).
  simpl. rewrite Hrun. unfold world_of, result_of, trace_of. simpl.
  split; [done | split; [done|]].
  induction messages as [|m messages [IHs IHn]]; [done|].
  simpl. rewrite socket_calls_app, Hcalls, IHs, length_app, Hlen, filter_cons.
  split; [done | intros _]. rewrite IHn by done.
  destruct (from_peer m); [rewrite decide_True by done | rewrite decide_False by done];
    simpl; lia.
Qed.
End ObserversMore.

(** ** Witnesses *)

Lemma sendMessage_success_iff_witness :
  delivered (JStr "ABC123") (JNum 1700000000) !! "success" = Some (JBool true) ↔
  ∃ w1 arr w2 msg,
    sock_onWhatsApp Samples.sock_reachable "79123456789" 0 = (w1, Normal (Some arr)) ∧
    reports_exists arr = true ∧
    sock_sendMessage Samples.sock_reachable (jid_of "79123456789") "Привет!" w1
    = (w2, Normal (Some msg)) ∧
    delivered (JStr "ABC123") (JNum 1700000000)
    = delivered (js_of_nullable JStr (id (key msg)))
                (js_of_nullable JNum (messageTimestamp msg)).
Proof.
  apply (sendMessage_success_iff Samples.sock_reachable "79123456789" "Привет!" 0).
  vm_compute. reflexivity.
Defined.

Lemma sendMessage_address_is_stable_witness :
  "79123456789@s.whatsapp.net" = "79123456789@s.whatsapp.net" ∧ "Ещё раз" = "Ещё раз".
Proof.
  apply (sendMessage_address_is_stable Samples.sock_reachable
           "79123456789" "Привет!" "Ещё раз"
           "79123456789@s.whatsapp.net" "Привет!"
           "79123456789@s.whatsapp.net" "Ещё раз" 0 2);
    vm_compute; apply list_elem_of_here.
Defined.

Lemma example2_sends_every_message_witness :
  sends (trace_of (Examples.example2_sendMultipleMessages
                     Samples.sock_reachable Examples.example2_messages 0))
  = [("79123456789@s.whatsapp.net", "Первое сообщение");
     ("79123456789@s.whatsapp.net", "Второе сообщение");
     ("79987654321@s.whatsapp.net", "Сообщение другому пользователю")].
Proof.
  apply (example2_sends_every_message Samples.sock_reachable Examples.example2_messages 0).
  intros p w0. do 2 eexists. split; reflexivity.
Defined.

Lemma example4_only_queries_witness :
  queries (trace_of (Examples.example4_checkNumbers
                       Samples.sock_not_exists Examples.numbersToCheck 0))
  = Examples.numbersToCheck ∧
  length (trace_of (Examples.example4_checkNumbers
                      Samples.sock_not_exists Examples.numbersToCheck 0)) = 6.
Proof.
  apply (example4_only_queries Samples.sock_not_exists Examples.numbersToCheck 0).
  reflexivity.
Defined.

Lemma example4_stops_at_first_failure_witness :
  Examples.example4_checkNumbers MoreSamples.sock_flaky Examples.numbersToCheck 0
  = (2,
     trace_of (Examples.example4_checkNumbers MoreSamples.sock_flaky ["79123456789"] 0)
     ++ [OnWhatsApp "79987654321"],
     Throw (mkError "Error" "Timed Out")) ∧
  Examples.example4_checkNumbers MoreSamples.sock_fading Examples.numbersToCheck 0
  = (2,
     trace_of (Examples.example4_checkNumbers MoreSamples.sock_fading ["79123456789"] 0)
     ++ [OnWhatsApp "79987654321"],
     Throw (TypeError
              "(intermediate value) is not iterable")).
Proof.
  split.
  - apply (proj1 (example4_stops_at_first_failure MoreSamples.sock_flaky
                    ["79123456789"] ["71234567890"] "79987654321" 0 2 eq_refl)).
    reflexivity.
  - apply (proj2 (example4_stops_at_first_failure MoreSamples.sock_fading
                    ["79123456789"] ["71234567890"] "79987654321" 0 2 eq_refl)).
    reflexivity.
Defined.

Lemma responder_replies_to_peers_witness :
  "notify" = "notify" ∧ is_reply MoreSamples.now Examples.GREETING ∧
  ∃ m, m ∈ [Samples.own_message "привет"; Samples.peer_message "привет"] ∧
       from_peer m = true ∧
       "79123456789@s.whatsapp.net" = template (remoteJid (key m)).
Proof.
  apply (proj1 (responder_replies_to_peers Samples.sock_reachable
                  MoreSamples.toLowerCase MoreSamples.now MoreSamples.send_nowhere
                  [Samples.own_message "привет"; Samples.peer_message "привет"]
                  "notify" 0)).
  vm_compute. apply list_elem_of_here.
Defined.

Lemma responder_stops_when_reply_fails_witness :
  let r := Examples.on_messages_upsert Samples.sock_send_fails
             MoreSamples.toLowerCase MoreSamples.now MoreSamples.send_nowhere
             ([Samples.own_message "время"] ++
              Samples.peer_message "привет" :: [Samples.peer_message "помощь"])
             "notify" 0 in
  result_of r = Throw (mkError "Error" "Timed Out") ∧ world_of r = 1 ∧
  sends (trace_of r)
  = sends (trace_of (Examples.on_messages_upsert Samples.sock_send_fails
                       MoreSamples.toLowerCase MoreSamples.now MoreSamples.send_nowhere
                       [Samples.own_message "время"] "notify" 0))
    ++ [("79123456789@s.whatsapp.net", Examples.GREETING)].
Proof.
  apply (responder_stops_when_reply_fails Samples.sock_send_fails
           MoreSamples.toLowerCase MoreSamples.now MoreSamples.send_nowhere
           [Samples.own_message "время"] [Samples.peer_message "помощь"]
           (Samples.peer_message "привет") "79123456789@s.whatsapp.net" 0 1
           (mkError "Error" "Timed Out"));
    reflexivity.
Defined.

Lemma restart_only_on_close_witness :
  reconnects (trace_of (Index.on_connection_update Samples.loggedOut
                          Samples.sock_reachable MoreSamples.opened 0)) = [] ∧
  reconnects (trace_of (Example.on_connection_update Samples.loggedOut
                          Samples.sock_reachable MoreSamples.opened 0)) = [].
Proof.
  apply restart_only_on_close. discriminate.
Defined.

Lemma open_logs_number_witness :
  let ri := Index.on_connection_update Samples.loggedOut
              Samples.sock_reachable MoreSamples.opened 0 in
  let re := Example.on_connection_update Samples.loggedOut
              Samples.sock_reachable MoreSamples.opened 0 in
  (result_of ri = Normal tt ∧
   ConsoleLog [JStr "📞 Номер:"; JStr "79990000000"] ∈ trace_of ri) ∧
  (result_of re = Normal tt ∧
   ConsoleLog [JStr ("📞 Номер: " +:+ "79990000000" +:+ nl)] ∈ trace_of re).
Proof.
  apply (open_logs_number Samples.loggedOut Samples.sock_reachable MoreSamples.opened 0
           "79990000000" "12@s.whatsapp.net" eq_refl eq_refl).
  left. reflexivity.
Defined.

Lemma open_without_user_throws_witness :
  let e := TypeError "Cannot read properties of undefined (reading 'id')" in
  result_of (Index.on_connection_update Samples.loggedOut
               Samples.sock_offline MoreSamples.opened 0) = Throw e ∧
  result_of (Example.on_connection_update Samples.loggedOut
               Samples.sock_offline MoreSamples.opened 0) = Throw e.
Proof.
  apply open_without_user_throws; reflexivity.
Defined.

Lemma index_upsert_only_logs_witness :
  length (trace_of (Index.on_messages_upsert (W := nat)
                      [Samples.own_message "привет"; Samples.peer_message "привет";
                       Samples.peer_message "пока"] "notify" 0))
  = 2 * length (filter (λ m, from_peer m = true)
                  [Samples.own_message "привет"; Samples.peer_message "привет";
                   Samples.peer_message "пока"]).
Proof.
  apply (index_upsert_only_logs (W := nat)). reflexivity.
Defined.
